(** * cosim: the HMC transition ([cosim/hmc.py]) and its coupled variant

    The development embeds [cosim.hmc.generate], [cosim.hmc.hmc_proposal] and
    [cosim.hmc.kernel] as Rocq functions, together with the collaborators
    they call ([integrators], [trajectory], [proposal], [base],
    [coupled.hmc]).  Floating-point numbers are idealised as the extended
    real line with a NaN element: the special values behave as in IEEE 754,
    rounding of finite values is not modelled. *)

From Stdlib Require Import Reals Lra Lia ZArith List Bool.
From Stdlib Require String.
Import ListNotations.

Set Implicit Arguments.

(** ** Floating-point values *)

Inductive float : Type :=
| Finite (r : R)
| PosInf
| NegInf
| NaN.

Declare Scope float_scope.
Delimit Scope float_scope with float.
Bind Scope float_scope with float.

Module Float.

Definition is_finite (x : float) : bool :=
  match x with Finite _ => true | _ => false end.

Definition is_nan (x : float) : bool :=
  match x with NaN => true | _ => false end.

Definition neg (x : float) : float :=
  match x with
  | Finite r => Finite (- r)
  | PosInf => NegInf
  | NegInf => PosInf
  | NaN => NaN
  end.

Definition add (x y : float) : float :=
  match x, y with
  | NaN, _ | _, NaN => NaN
  | Finite a, Finite b => Finite (a + b)
  | PosInf, NegInf | NegInf, PosInf => NaN
  | PosInf, _ | _, PosInf => PosInf
  | NegInf, _ | _, NegInf => NegInf
  end.

Definition sub (x y : float) : float := add x (neg y).

(** The exponential; on finite values it is the real exponential, so
    neither rounding nor underflow to 0 nor overflow is modelled. *)
Definition exp (x : float) : float :=
  match x with
  | Finite r => Finite (Rtrigo_def.exp r)
  | PosInf => PosInf
  | NegInf => Finite 0
  | NaN => NaN
  end.

(** [x < y]; every comparison with NaN is false. *)
Definition ltb (x y : float) : bool :=
  match x, y with
  | NaN, _ | _, NaN => false
  | Finite a, Finite b => if Rlt_dec a b then true else false
  | NegInf, NegInf => false
  | NegInf, _ => true
  | _, NegInf => false
  | PosInf, _ => false
  | _, PosInf => true
  end.

(** Element-wise minimum; a NaN operand gives NaN. *)
Definition min (x y : float) : float :=
  match x, y with
  | NaN, _ | _, NaN => NaN
  | _, _ => if ltb y x then y else x
  end.

Definition eq_dec (x y : float) : {x = y} + {x <> y}.
Proof.
  decide equality. apply Req_dec_T.
Defined.

Definition eqb (x y : float) : bool := if eq_dec x y then true else false.

Definition one : float := Finite 1.
Definition zero : float := Finite 0.

End Float.

Infix "+" := Float.add : float_scope.
Infix "-" := Float.sub : float_scope.
Infix "<?" := Float.ltb : float_scope.

(** ** Structured containers and random keys

    [PyTree] values (positions and momenta) are an arbitrary container with
    element-wise arithmetic; the kernel needs negation (for the momentum
    flip) and the exact (bit-for-bit) equality test of the coupled kernel. *)

Class PyTreeOps (PyTree : Type) : Type := {
  tree_neg : PyTree -> PyTree;
  tree_eqb : PyTree -> PyTree -> bool;
  tree_eqb_spec : forall p q, tree_eqb p q = true <-> p = q
}.

(** A random key can be split into two keys and can produce one uniform
    draw in [0,1). *)
Class PRNG (Key : Type) : Type := {
  split : Key -> Key * Key;
  uniform : Key -> R;
  uniform_range : forall k, (0 <= uniform k < 1)%R
}.

(** ** Records *)

(** Modelled from the spec: [integrators.IntegratorState] is not among the
    sources; section 3 gives its four fields. *)
Module IntegratorState.
Record t (PyTree : Type) : Type := mk {
  position : PyTree;
  momentum : PyTree;
  potential_energy : float;
  potential_energy_grad : PyTree
}.
End IntegratorState.

(** Modelled from the spec: [proposal.Proposal] is not among the sources;
    section 3: a state, its energy and a weight. *)
Module Proposal.
Record t (PyTree : Type) : Type := mk {
  state : IntegratorState.t PyTree;
  energy : float;
  weight : float
}.
End Proposal.

(** Modelled from the spec: the first component returned by the acceptance
    sampler, of which [generate] reads the [state] (hmc.py line 176);
    section 3: a state, the acceptance probability and the acceptance
    flag. *)
Module SampledProposal.
Record t (PyTree : Type) : Type := mk {
  state : IntegratorState.t PyTree;
  acceptance_probability : float;
  is_accepted : bool
}.
End SampledProposal.

(** [class HMCInfo(NamedTuple)], hmc.py lines 48-54.  The [proposal] field is
    annotated [IntegratorState] in the source; [generate] stores the whole
    new [Proposal] in it (line 172), which is what the field holds here. *)
Module HMCInfo.
Record t (PyTree : Type) : Type := mk {
  momentum : PyTree;
  acceptance_probability : float;
  is_accepted : bool;
  is_divergent : bool;
  energy : float;
  proposal : Proposal.t PyTree;
  num_integration_steps : Z
}.
End HMCInfo.

(** ** [cosim.inference.integrators] *)

Module integrators.
Section Integrators.
Context {PyTree : Type} `{PyTreeOps PyTree}.

(** Modelled from the spec: [integrators.flip_momentum] is not among the
    sources; section 4.5 step 3 says it negates the momentum of the
    trajectory endpoint. *)
Definition flip_momentum (state : IntegratorState.t PyTree)
  : IntegratorState.t PyTree :=
  IntegratorState.mk
    (IntegratorState.position state)
    (tree_neg (IntegratorState.momentum state))
    (IntegratorState.potential_energy state)
    (IntegratorState.potential_energy_grad state).

End Integrators.
End integrators.

(** ** [cosim.inference.trajectory] *)

Module trajectory.
Section Trajectory.
Context {PyTree : Type}.

(** Modelled from the spec: [trajectory.static_integration] is not among
    the sources; section 4.3 says the trajectory is obtained by applying
    the step function exactly [num_steps] times. *)
Definition static_integration
    (integrator : IntegratorState.t PyTree -> float -> IntegratorState.t PyTree)
    (step_size : float) (num_integration_steps : Z)
    (initial_state : IntegratorState.t PyTree) : IntegratorState.t PyTree :=
  Nat.iter (Z.to_nat num_integration_steps)
           (fun state => integrator state step_size) initial_state.

End Trajectory.
End trajectory.

(** ** [cosim.inference.proposal] *)

Module proposal.
Section ProposalMachinery.
Context {PyTree Key : Type} `{PRNG Key}.

Variable kinetic_energy : PyTree -> float.
Variable divergence_threshold : float.

(** Modelled from the spec: section 3, the energy of a state is its
    potential energy plus the kinetic energy of its momentum. *)
Definition total_energy (state : IntegratorState.t PyTree) : float :=
  (IntegratorState.potential_energy state
   + kinetic_energy (IntegratorState.momentum state))%float.

(** Modelled from the spec: [proposal.proposal_generator] is not among the
    sources.  Section 4.4: [init_proposal] gives the proposal of a state with
    energy = potential energy + kinetic energy of its momentum.  The spec
    names the [weight] field without fixing it; the initial proposal carries
    weight 0. *)
Definition init_proposal (state : IntegratorState.t PyTree) : Proposal.t PyTree :=
  Proposal.mk state (total_energy state) Float.zero.

(** Modelled from the spec: section 4.4, the transition is diverging iff
    [end_energy - initial_energy] is not finite or exceeds the divergence
    threshold. *)
Definition is_diverging (initial_energy end_energy : float) : bool :=
  let delta := (end_energy - initial_energy)%float in
  negb (Float.is_finite delta) || (divergence_threshold <? delta)%float.

(** Modelled from the spec: the acceptance weight of a proposal, on the
    logarithmic scale.  Section 4.4: the acceptance ratio is
    [exp(initial_energy - new_energy)], and a proposal whose energy
    difference is NaN has weight zero, that is, logarithm -infinity. *)
Definition log_weight (initial_energy new_energy : float) : float :=
  let delta := (initial_energy - new_energy)%float in
  if Float.is_nan delta then NegInf else delta.

(** Modelled from the spec: section 4.4, [generate_proposal] computes the
    end energy the same way as [init_proposal] and reports the divergence
    flag next to the proposal, which carries its acceptance weight. *)
Definition generate_proposal (initial_energy : float)
    (end_state : IntegratorState.t PyTree) : Proposal.t PyTree * bool :=
  let end_energy := total_energy end_state in
  (Proposal.mk end_state end_energy (log_weight initial_energy end_energy),
   is_diverging initial_energy end_energy).

(** Modelled from the spec: [proposal.proposal_generator] returns the pair
    [(init_proposal, generate_proposal)] unpacked at hmc.py line 136. *)
Definition proposal_generator :=
  (init_proposal, generate_proposal).

(** Modelled from the spec: the acceptance probability of
    [proposal.static_binomial_sampling], which is not among the sources.
    Section 4.4: [min(1, exp(initial_energy - new_energy))], the acceptance
    weight clipped to 1; it is 0 when the new energy is +infinity or NaN.
    The spec's formula and its remark on infinite energies disagree at a new
    energy of -infinity, where the formula, followed here, gives 1. *)
Definition acceptance_probability (initial_energy new_energy : float) : float :=
  Float.min Float.one (Float.exp (log_weight initial_energy new_energy)).

(** Modelled from the spec: [proposal.static_binomial_sampling] is not among
    the sources.  Section 4.4: accept iff a uniform draw in [0,1) is less
    than the acceptance probability; on accept the new proposal's state is
    returned, else the initial proposal's. *)
Definition static_binomial_sampling (rng_key : Key)
    (initial_proposal new_proposal : Proposal.t PyTree)
  : SampledProposal.t PyTree * bool * float :=
  let p_accept :=
    acceptance_probability (Proposal.energy initial_proposal)
                           (Proposal.energy new_proposal) in
  let do_accept := (Finite (uniform rng_key) <? p_accept)%float in
  let state := if do_accept then Proposal.state new_proposal
               else Proposal.state initial_proposal in
  (SampledProposal.mk state p_accept do_accept, do_accept, p_accept).

End ProposalMachinery.
End proposal.

(** ** [cosim.inference.base] *)

Module base.
Section Base.
Context {PyTree Key Info : Type} `{PRNG Key}.

(** Modelled from the spec: [base.hmc] is not among the sources.  Section 4.5
    step 1: the transition's random input gives the momentum draw, which is
    attached to the current position to form the initial integrator state;
    the acceptance draw is a fresh one, independent of the momentum's. *)
Definition hmc
    (momentum_generator : Key -> PyTree)
    (proposal_generator : Key -> IntegratorState.t PyTree ->
                          IntegratorState.t PyTree * Info)
    (rng_key : Key) (state : IntegratorState.t PyTree)
  : IntegratorState.t PyTree * Info :=
  let '(key_momentum, key_integrator) := split rng_key in
  let momentum := momentum_generator key_momentum in
  let augmented_state :=
    IntegratorState.mk
      (IntegratorState.position state)
      momentum
      (IntegratorState.potential_energy state)
      (IntegratorState.potential_energy_grad state) in
  proposal_generator key_integrator augmented_state.

End Base.
End base.

(** ** [cosim.hmc] *)

Module hmc.
Section Kernel.
Context {PyTree Key Array : Type} `{PyTreeOps PyTree} `{PRNG Key}.

Let State := IntegratorState.t PyTree.

(** [new_state = base.new_hmc_state], hmc.py line 57: the state of a chain
    at a position, with the potential energy and its gradient there;
    [base.new_hmc_state] is a collaborator outside the sources. *)
Variable new_hmc_state : PyTree -> (PyTree -> float) -> State.

Definition new_state : PyTree -> (PyTree -> float) -> State := new_hmc_state.

(** [generate], hmc.py lines 149-176. *)
Definition generate
    (rng_key : Key)
    (state : State)
    (build_trajectory : State -> State)
    (init_proposal : State -> Proposal.t PyTree)
    (generate_proposal : float -> State -> Proposal.t PyTree * bool)
    (sample_proposal : Key -> Proposal.t PyTree -> Proposal.t PyTree ->
                       SampledProposal.t PyTree * bool * float)
    (num_integration_steps : Z)
  : State * HMCInfo.t PyTree :=
  let end_state := build_trajectory state in
  let end_state := integrators.flip_momentum end_state in
  let proposal := init_proposal state in
  let '(new_proposal, is_diverging) :=
    generate_proposal (Proposal.energy proposal) end_state in
  let '(sampled_proposal, do_accept, p_accept) :=
    sample_proposal rng_key proposal new_proposal in
  let info :=
    HMCInfo.mk
      (IntegratorState.momentum state)
      p_accept
      do_accept
      is_diverging
      (Proposal.energy new_proposal)
      new_proposal
      num_integration_steps in
  (SampledProposal.state sampled_proposal, info).

(** [hmc_proposal], hmc.py lines 100-146: [generate] with its collaborators
    fixed by [functools.partial]. *)
Definition hmc_proposal
    (integrator : State -> float -> State)
    (kinetic_energy : PyTree -> float)
    (step_size : float)
    (num_integration_steps : Z)
    (divergence_threshold : float)
  : Key -> State -> State * HMCInfo.t PyTree :=
  let build_trajectory :=
    trajectory.static_integration integrator step_size num_integration_steps in
  let '(init_proposal, generate_proposal) :=
    proposal.proposal_generator kinetic_energy divergence_threshold in
  let sample_proposal := proposal.static_binomial_sampling in
  fun rng_key state =>
    generate rng_key state build_trajectory init_proposal generate_proposal
             sample_proposal num_integration_steps.

(** [metrics.gaussian_euclidean] (momentum sampler, kinetic energy, velocity)
    and the integrator scheme are collaborators outside the sources. *)
Variable gaussian_euclidean :
  Array -> (Key -> PyTree) * (PyTree -> float) * (PyTree -> PyTree).

(** [kernel], hmc.py lines 60-97. *)
Definition kernel
    (potential_fn : PyTree -> float)
    (step_size : float)
    (inverse_mass_matrix : Array)
    (num_integration_steps : Z)
    (integrator : (PyTree -> float) -> (PyTree -> float) ->
                  State -> float -> State)
    (divergence_threshold : float)
  : Key -> State -> State * HMCInfo.t PyTree :=
  let '(momentum_generator, kinetic_energy_fn, _) :=
    gaussian_euclidean inverse_mass_matrix in
  let symplectic_integrator := integrator potential_fn kinetic_energy_fn in
  let proposal_generator :=
    hmc_proposal symplectic_integrator kinetic_energy_fn step_size
                     num_integration_steps divergence_threshold in
  base.hmc momentum_generator proposal_generator.

End Kernel.
End hmc.

(** ** [cosim.coupled.hmc] *)

(** Modelled from the spec: [coupled.hmc]'s state is not among the sources;
    section 3: the two chain states and the coupling flag. *)
Module CoupledState.
Record t (PyTree : Type) : Type := mk {
  state_1 : IntegratorState.t PyTree;
  state_2 : IntegratorState.t PyTree;
  is_coupled : bool
}.
End CoupledState.

Module coupled_hmc.
Section Coupled.
Context {PyTree Key Array : Type} `{PyTreeOps PyTree} `{PRNG Key}.

Let State := IntegratorState.t PyTree.

(** [base.new_hmc_state], as in [hmc.new_state]. *)
Variable new_hmc_state : PyTree -> (PyTree -> float) -> State.

(** Modelled from the spec: [coupled.hmc.new_state] is not among the sources.
    Section 4.6: the two chains start uncoupled. *)
Definition new_state (position_1 position_2 : PyTree)
    (potential_fn : PyTree -> float) : CoupledState.t PyTree :=
  CoupledState.mk (hmc.new_state new_hmc_state position_1 potential_fn)
                  (hmc.new_state new_hmc_state position_2 potential_fn)
                  false.

(** Modelled from the spec: the transition of [coupled.hmc.kernel], which is
    not among the sources.  Section 4.6: once coupled, the ordinary HMC
    transition is applied once and its result copied into both chains;
    before that, both chains run the HMC transition on the same random key
    (hence the same momentum draw and the same acceptance draw), and the
    pair is coupled when the two new positions are exactly equal. *)
Definition coupled_transition {Info : Type}
    (hmc_kernel : Key -> State -> State * Info)
    (coupled_state : CoupledState.t PyTree) (rng_key : Key)
  : CoupledState.t PyTree :=
  if CoupledState.is_coupled coupled_state then
    let state := fst (hmc_kernel rng_key (CoupledState.state_1 coupled_state)) in
    CoupledState.mk state state true
  else
    let state_1 := fst (hmc_kernel rng_key (CoupledState.state_1 coupled_state)) in
    let state_2 := fst (hmc_kernel rng_key (CoupledState.state_2 coupled_state)) in
    CoupledState.mk state_1 state_2
      (tree_eqb (IntegratorState.position state_1)
                (IntegratorState.position state_2)).

Variable gaussian_euclidean :
  Array -> (Key -> PyTree) * (PyTree -> float) * (PyTree -> PyTree).

(** Modelled from the spec: [coupled.hmc.kernel] is not among the sources.
    Section 6: it is constructed from the same arguments as [hmc.kernel] and
    gives a transition over coupled states. *)
Definition kernel
    (potential_fn : PyTree -> float)
    (step_size : float)
    (inverse_mass_matrix : Array)
    (num_integration_steps : Z)
    (integrator : (PyTree -> float) -> (PyTree -> float) ->
                  State -> float -> State)
    (divergence_threshold : float)
  : CoupledState.t PyTree -> Key -> CoupledState.t PyTree :=
  coupled_transition
    (hmc.kernel gaussian_euclidean potential_fn step_size inverse_mass_matrix
                num_integration_steps integrator divergence_threshold).

End Coupled.
End coupled_hmc.

(** ** The sampling loop of the tests *)

Section InferenceLoop.
Context {Key S : Type}.

(** Modelled from the spec: [tests.utils.inference_loop] is not among the
    sources.  Sections 6 and 8: a driver supplies successive random inputs
    (the key stream) and accumulates the returned states. *)
Fixpoint inference_loop (step : Key -> S -> S) (initial_state : S)
    (keys : list Key) : list S :=
  match keys with
  | [] => []
  | rng_key :: keys' =>
      let state := step rng_key initial_state in
      state :: inference_loop step state keys'
  end.

End InferenceLoop.

(** ** Derived notions used in the statements *)

Section TransitionNotions.
Context {PyTree : Type} `{PyTreeOps PyTree}.

Variable integrator : IntegratorState.t PyTree -> float -> IntegratorState.t PyTree.
Variable kinetic_energy : PyTree -> float.
Variable step_size : float.
Variable num_integration_steps : Z.

(** The trajectory endpoint after [num_integration_steps] steps, momentum
    flipped (hmc.py lines 159-160 with the trajectory of [hmc_proposal]). *)
Definition proposed_state (state : IntegratorState.t PyTree)
  : IntegratorState.t PyTree :=
  integrators.flip_momentum
    (trajectory.static_integration integrator step_size
                                   num_integration_steps state).

Definition initial_energy (state : IntegratorState.t PyTree) : float :=
  proposal.total_energy kinetic_energy state.

Definition proposed_energy (state : IntegratorState.t PyTree) : float :=
  proposal.total_energy kinetic_energy (proposed_state state).

End TransitionNotions.

Section Drivers.
Context {PyTree Key Info : Type} `{PyTreeOps PyTree}.

Variable hmc_kernel :
  Key -> IntegratorState.t PyTree -> IntegratorState.t PyTree * Info.

(** The two step functions driven by the sampling loop: the plain kernel
    keeps the new state and drops the diagnostics, the coupled kernel takes
    its arguments in the other order. *)
Definition hmc_step (rng_key : Key) (state : IntegratorState.t PyTree)
  : IntegratorState.t PyTree :=
  fst (hmc_kernel rng_key state).

Definition coupled_step (rng_key : Key) (coupled_state : CoupledState.t PyTree)
  : CoupledState.t PyTree :=
  coupled_hmc.coupled_transition hmc_kernel coupled_state rng_key.

End Drivers.

(** ** Concrete instances

    A one-leaf container (a scalar position, as in the test's [{"x": 1.}])
    and a counter-based key stream, used to run the kernel on examples. *)

#[export] Instance scalar_tree : PyTreeOps float.
Proof.
  refine {| tree_neg := Float.neg; tree_eqb := Float.eqb |}.
  intros p q. unfold Float.eqb.
  destruct (Float.eq_dec p q); split; congruence.
Defined.

(** Key [n] draws [n / (n + 1)]: key 0 draws 0, key 1 draws 1/2, ... *)
Definition counter_uniform (n : nat) : R := (INR n / (INR n + 1))%R.

#[export] Instance counter_key : PRNG nat.
Proof.
  refine {| split := fun n => (2 * n + 1, 2 * n + 2)%nat;
            uniform := counter_uniform |}.
  intros n. unfold counter_uniform.
  assert (Hn : (0 <= INR n)%R) by apply pos_INR.
  split.
  - apply Rmult_le_pos; [exact Hn|].
    left. apply Rinv_0_lt_compat. lra.
  - apply (Rmult_lt_reg_r (INR n + 1)); [lra|].
    unfold Rdiv. rewrite Rmult_assoc, Rinv_l by lra. lra.
Defined.

(** A state of the one-leaf container at position [q] with momentum [p] and
    potential energy [u]. *)
Definition scalar_state (q p u : float) : IntegratorState.t float :=
  IntegratorState.mk q p u (Finite 0).

Definition origin_state : IntegratorState.t float :=
  scalar_state (Finite 0) (Finite 0) (Finite 0).

(** An integrator step that leaves position and momentum alone and reports
    potential energy 1 at the new state. *)
Definition energy_jump_integrator
    (state : IntegratorState.t float) (step_size : float)
  : IntegratorState.t float :=
  IntegratorState.mk (IntegratorState.position state)
                     (IntegratorState.momentum state)
                     (Finite 1)
                     (IntegratorState.potential_energy_grad state).

(** An integrator step that ends at position 5 with momentum 3, where the
    potential energy is +infinity. *)
Definition blow_up_integrator
    (state : IntegratorState.t float) (step_size : float)
  : IntegratorState.t float :=
  IntegratorState.mk (Finite 5) (Finite 3) PosInf (Finite 0).

Definition no_kinetic_energy (momentum : float) : float := Finite 0.

(** A kernel configuration on the one-leaf container: a flat potential, a
    metric whose momentum draw is always 0 and whose kinetic energy is 0,
    and an integrator step that moves every chain to position 0. *)
Definition flat_potential (position : float) : float := Finite 0.

Definition still_metric (inverse_mass_matrix : float)
  : (nat -> float) * (float -> float) * (float -> float) :=
  (fun rng_key => Finite 0, no_kinetic_energy, fun momentum => momentum).

Definition attracting_integrator (potential_fn kinetic_energy_fn : float -> float)
    (state : IntegratorState.t float) (step_size : float)
  : IntegratorState.t float :=
  IntegratorState.mk (Finite 0) (IntegratorState.momentum state)
                     (potential_fn (Finite 0)) (Finite 0).

Definition scalar_new_state (position : float) (potential_fn : float -> float)
  : IntegratorState.t float :=
  scalar_state position (Finite 0) (potential_fn position).

Definition met_state : IntegratorState.t float :=
  IntegratorState.mk (Finite 0) (Float.neg (Finite 0)) (Finite 0) (Finite 0).

(** ** [generate] with Python's unpacking and attribute errors

    The source unpacks what its collaborators return ([a, b = ...] at
    hmc.py line 162, [a, *rest = ...] at line 163, [a, b = rest] at line
    164) and reads attributes of the objects they return ([.energy] at
    lines 162 and 171, [.state] at line 176).  Here a collaborator's result
    is the sequence of items it yields when unpacked, objects are values of
    an arbitrary type [V], and an attribute may be missing;
    [generate_objects] also covers results that cannot be unpacked at
    all. *)

Module untyped.

Inductive exn : Type :=
| ValueError
| AttributeError
| TypeError.

Definition result (A : Type) : Type := (exn + A)%type.

Definition bind {A B : Type} (m : result A) (f : A -> result B) : result B :=
  match m with
  | inl e => inl e
  | inr a => f a
  end.

(** [obj.attr]: AttributeError when the object has no such attribute. *)
Definition getattr {V : Type} (attr : V -> option V) (obj : V) : result V :=
  match attr obj with
  | Some v => inr v
  | None => inl AttributeError
  end.

(** [a, b = items]: ValueError unless there are exactly two items. *)
Definition unpack_2 {V : Type} (items : list V) : result (V * V) :=
  match items with
  | [a; b] => inr (a, b)
  | _ => inl ValueError
  end.

(** [a, *rest = items]: ValueError when there is no item. *)
Definition unpack_star {V : Type} (items : list V) : result (V * list V) :=
  match items with
  | a :: rest => inr (a, rest)
  | [] => inl ValueError
  end.

(** The [HMCInfo] tuple as the constructor call of lines 166-174 fills it:
    a NamedTuple does not check the types of its fields. *)
Record hmc_info (PyTree V : Type) : Type := mk_info {
  momentum : PyTree;
  acceptance_probability : V;
  is_accepted : V;
  is_divergent : V;
  energy : V;
  proposal : V;
  num_integration_steps : Z
}.

Section UntypedGenerate.
Context {PyTree Key V : Type} `{PyTreeOps PyTree}.

Variable energy_of : V -> option V.
Variable state_of : V -> option V.

(** [generate], hmc.py lines 149-176, statement by statement. *)
Definition generate
    (rng_key : Key)
    (state : IntegratorState.t PyTree)
    (build_trajectory : IntegratorState.t PyTree -> IntegratorState.t PyTree)
    (init_proposal : IntegratorState.t PyTree -> V)
    (generate_proposal : V -> IntegratorState.t PyTree -> list V)
    (sample_proposal : Key -> V -> V -> list V)
    (num_integration_steps : Z)
  : result (V * hmc_info PyTree V) :=
  let end_state := build_trajectory state in
  let end_state := integrators.flip_momentum end_state in
  let proposal := init_proposal state in
  bind (getattr energy_of proposal) (fun proposal_energy =>
  bind (unpack_2 (generate_proposal proposal_energy end_state))
       (fun '(new_proposal, is_diverging) =>
  bind (unpack_star (sample_proposal rng_key proposal new_proposal))
       (fun '(sampled_proposal, info) =>
  bind (unpack_2 info) (fun '(do_accept, p_accept) =>
  bind (getattr energy_of new_proposal) (fun new_energy =>
  let info :=
    mk_info
      (IntegratorState.momentum state)
      p_accept
      do_accept
      is_diverging
      new_energy
      new_proposal
      num_integration_steps in
  bind (getattr state_of sampled_proposal) (fun sampled_state =>
  inr (sampled_state, info))))))).

(** What a collaborator returns, as unpacking sees it: an iterable with its
    items, or an object that cannot be iterated (None, a number), on which
    unpacking raises TypeError. *)
Inductive returned (V : Type) : Type :=
| Items (items : list V)
| NotIterable.

Definition iterate (r : returned V) : result (list V) :=
  match r with
  | Items items => inr items
  | NotIterable _ => inl TypeError
  end.

(** [generate], hmc.py lines 149-176, with collaborators that may return an
    object that is not iterable. *)
Definition generate_objects
    (rng_key : Key)
    (state : IntegratorState.t PyTree)
    (build_trajectory : IntegratorState.t PyTree -> IntegratorState.t PyTree)
    (init_proposal : IntegratorState.t PyTree -> V)
    (generate_proposal : V -> IntegratorState.t PyTree -> returned V)
    (sample_proposal : Key -> V -> V -> returned V)
    (num_integration_steps : Z)
  : result (V * hmc_info PyTree V) :=
  let end_state := build_trajectory state in
  let end_state := integrators.flip_momentum end_state in
  let proposal := init_proposal state in
  bind (getattr energy_of proposal) (fun proposal_energy =>
  bind (iterate (generate_proposal proposal_energy end_state))
       (fun generated =>
  bind (unpack_2 generated) (fun '(new_proposal, is_diverging) =>
  bind (iterate (sample_proposal rng_key proposal new_proposal))
       (fun sampled =>
  bind (unpack_star sampled) (fun '(sampled_proposal, info) =>
  bind (unpack_2 info) (fun '(do_accept, p_accept) =>
  bind (getattr energy_of new_proposal) (fun new_energy =>
  let info :=
    mk_info
      (IntegratorState.momentum state)
      p_accept
      do_accept
      is_diverging
      new_energy
      new_proposal
      num_integration_steps in
  bind (getattr state_of sampled_proposal) (fun sampled_state =>
  inr (sampled_state, info))))))))).

End UntypedGenerate.

(** The objects of the typed transition, as values. *)
Inductive value (PyTree : Type) : Type :=
| VState (state : IntegratorState.t PyTree)
| VProposal (proposal : Proposal.t PyTree)
| VSampled (sampled : SampledProposal.t PyTree)
| VBool (b : bool)
| VFloat (x : float).

Section TypedValues.
Context {PyTree Key : Type}.

Definition value_energy (v : value PyTree) : option (value PyTree) :=
  match v with
  | VProposal p => Some (VFloat PyTree (Proposal.energy p))
  | _ => None
  end.

Definition value_state (v : value PyTree) : option (value PyTree) :=
  match v with
  | VProposal p => Some (VState (Proposal.state p))
  | VSampled s => Some (VState (SampledProposal.state s))
  | _ => None
  end.

(** Typed collaborators seen as untyped ones: the pair and the triple they
    return become sequences of two and three items. *)
Definition lift_init_proposal
    (init_proposal : IntegratorState.t PyTree -> Proposal.t PyTree)
    (state : IntegratorState.t PyTree) : value PyTree :=
  VProposal (init_proposal state).

Definition lift_generate_proposal
    (generate_proposal :
       float -> IntegratorState.t PyTree -> Proposal.t PyTree * bool)
    (initial_energy : value PyTree) (end_state : IntegratorState.t PyTree)
  : list (value PyTree) :=
  match initial_energy with
  | VFloat _ x =>
      let '(new_proposal, is_diverging) := generate_proposal x end_state in
      [VProposal new_proposal; VBool PyTree is_diverging]
  | _ => []
  end.

Definition lift_sample_proposal
    (sample_proposal :
       Key -> Proposal.t PyTree -> Proposal.t PyTree ->
       SampledProposal.t PyTree * bool * float)
    (rng_key : Key) (proposal new_proposal : value PyTree)
  : list (value PyTree) :=
  match proposal, new_proposal with
  | VProposal p, VProposal q =>
      let '(sampled, do_accept, p_accept) := sample_proposal rng_key p q in
      [VSampled sampled; VBool PyTree do_accept; VFloat PyTree p_accept]
  | _, _ => []
  end.

Definition lift_info (info : HMCInfo.t PyTree) : hmc_info PyTree (value PyTree) :=
  mk_info
    (HMCInfo.momentum info)
    (VFloat PyTree (HMCInfo.acceptance_probability info))
    (VBool PyTree (HMCInfo.is_accepted info))
    (VBool PyTree (HMCInfo.is_divergent info))
    (VFloat PyTree (HMCInfo.energy info))
    (VProposal (HMCInfo.proposal info))
    (HMCInfo.num_integration_steps info).

End TypedValues.

End untyped.

(** ** [tests/test_coupled_hmc.py]: the target of the test *)

Module test_coupled_hmc.
Import String.

(** [jax.scipy.stats.norm.logpdf], a library function: the logarithm of the
    normal density, -(log(2 pi scale^2) + (x - loc)^2 / scale^2) / 2.  It is
    written over the reals: the rounding and the overflow of the float32
    computation are not modelled, and nothing below depends on its
    values. *)
Definition norm_logpdf (x loc scale : R) : R :=
  ((ln (2 * PI * Rsqr scale) + Rsqr (x - loc) / Rsqr scale) / (- 2))%R.

(** [normal_potential_fn], test_coupled_hmc.py lines 14-15. *)
Definition normal_potential_fn (x : R) : R := (- norm_logpdf x 1 2)%R.

(** [potential], line 22, calls [normal_potential_fn] with the entries of
    the position as keyword arguments.  The position is a dict, here a list
    of entries with distinct keys; the call is a TypeError ([None]) unless
    the keywords are exactly [x]. *)
Definition potential (position : list (String.string * R)) : option R :=
  match position with
  | [(name, x)] =>
      if String.eqb name "x"%string then Some (normal_potential_fn x) else None
  | _ => None
  end.

End test_coupled_hmc.

(** A metric that differs from [still_metric] in its velocity only, and a
    potential that differs from [flat_potential]. *)
Definition still_metric_reversed (inverse_mass_matrix : float)
  : (nat -> float) * (float -> float) * (float -> float) :=
  (fun rng_key => Finite 0, no_kinetic_energy, Float.neg).

Definition sloped_potential (position : float) : float := position.

(** * Floating-point facts used by the acceptance step *)

Section FloatFacts.
Local Open Scope R_scope.

Lemma ltb_finite (a b : R) :
  Float.ltb (Finite a) (Finite b) = true <-> a < b.
Proof.
  cbn. destruct (Rlt_dec a b); split; intros; try lra; congruence.
Qed.

Lemma ltb_finite_false (a b : R) :
  Float.ltb (Finite a) (Finite b) = false <-> b <= a.
Proof.
  cbn. destruct (Rlt_dec a b); split; intros; try lra; congruence.
Qed.

Lemma min_one_finite (x : R) :
  Float.min Float.one (Finite x) = Finite (Rmin 1 x).
Proof.
  unfold Float.min, Float.one.
  destruct (Float.ltb (Finite x) (Finite 1)) eqn:E.
  - apply ltb_finite in E. rewrite Rmin_right by lra. reflexivity.
  - apply ltb_finite_false in E. rewrite Rmin_left by lra. reflexivity.
Qed.

Lemma sub_finite (a b : R) : (Finite a - Finite b)%float = Finite (a - b).
Proof. reflexivity. Qed.

Lemma draw_not_below_zero (u : R) :
  0 <= u -> Float.ltb (Finite u) Float.zero = false.
Proof.
  intros Hu. apply ltb_finite_false. exact Hu.
Qed.


End FloatFacts.

(** * Properties of one transition ([generate]) *)

Section GenerateProperties.
Context {PyTree Key : Type} `{PyTreeOps PyTree} `{PRNG Key}.

Let State := IntegratorState.t PyTree.

Variable build_trajectory : State -> State.
Variable init_proposal : State -> Proposal.t PyTree.
Variable generate_proposal : float -> State -> Proposal.t PyTree * bool.
Variable sample_proposal :
  Key -> Proposal.t PyTree -> Proposal.t PyTree ->
  SampledProposal.t PyTree * bool * float.
Variable num_integration_steps : Z.

Lemma generate_unfold (rng_key : Key) (state : State) :
  hmc.generate rng_key state build_trajectory init_proposal generate_proposal
               sample_proposal num_integration_steps
  = let gp := generate_proposal (Proposal.energy (init_proposal state))
                                (integrators.flip_momentum (build_trajectory state)) in
    let sp := sample_proposal rng_key (init_proposal state) (fst gp) in
    (SampledProposal.state (fst (fst sp)),
     HMCInfo.mk (IntegratorState.momentum state) (snd sp) (snd (fst sp))
                (snd gp) (Proposal.energy (fst gp)) (fst gp)
                num_integration_steps).
Proof.
  unfold hmc.generate. cbv zeta.
  destruct (generate_proposal _ _) as [np d]; cbn [fst snd].
  destruct (sample_proposal _ _ _) as [[sp a] p]; reflexivity.
Qed.

(** C1: in every transition the momentum of the trajectory endpoint is
    negated before anything is compared or sampled: the flipped endpoint has
    the endpoint's position, potential energy and gradient and the negated
    momentum, the new proposal and the divergence flag are generated from
    the flipped endpoint, and the acceptance sampler is run on that
    proposal. *)
Theorem generate_evaluates_flipped_endpoint (rng_key : Key) (state : State) :
  let endpoint := build_trajectory state in
  let flipped := integrators.flip_momentum endpoint in
  let generated :=
    generate_proposal (Proposal.energy (init_proposal state)) flipped in
  let sampled := sample_proposal rng_key (init_proposal state) (fst generated) in
  let result :=
    hmc.generate rng_key state build_trajectory init_proposal
                 generate_proposal sample_proposal num_integration_steps in
  IntegratorState.momentum flipped
    = tree_neg (IntegratorState.momentum endpoint)
  /\ IntegratorState.position flipped = IntegratorState.position endpoint
  /\ IntegratorState.potential_energy flipped
     = IntegratorState.potential_energy endpoint
  /\ IntegratorState.potential_energy_grad flipped
     = IntegratorState.potential_energy_grad endpoint
  /\ HMCInfo.proposal (snd result) = fst generated
  /\ HMCInfo.is_divergent (snd result) = snd generated
  /\ fst result = SampledProposal.state (fst (fst sampled))
  /\ HMCInfo.is_accepted (snd result) = snd (fst sampled)
  /\ HMCInfo.acceptance_probability (snd result) = snd sampled.
Proof.
  cbv zeta. rewrite generate_unfold. cbn.
  repeat split; reflexivity.
Qed.

(** C8: the diagnostic record of a transition is made of seven fields, in
    this order: the momentum used, the acceptance probability, the
    acceptance flag, the divergence flag, the energy of the proposal, the
    proposal itself and the number of integration steps; a record is
    determined by these seven. *)
Theorem generate_info_fields (rng_key : Key) (state : State) :
  let generated :=
    generate_proposal (Proposal.energy (init_proposal state))
                      (integrators.flip_momentum (build_trajectory state)) in
  let sampled := sample_proposal rng_key (init_proposal state) (fst generated) in
  let info :=
    snd (hmc.generate rng_key state build_trajectory init_proposal
                      generate_proposal sample_proposal num_integration_steps) in
  info = HMCInfo.mk (IntegratorState.momentum state)
                    (snd sampled)
                    (snd (fst sampled))
                    (snd generated)
                    (Proposal.energy (fst generated))
                    (fst generated)
                    num_integration_steps
  /\ forall i : HMCInfo.t PyTree,
       i = HMCInfo.mk (HMCInfo.momentum i)
                      (HMCInfo.acceptance_probability i)
                      (HMCInfo.is_accepted i)
                      (HMCInfo.is_divergent i)
                      (HMCInfo.energy i)
                      (HMCInfo.proposal i)
                      (HMCInfo.num_integration_steps i).
Proof.
  cbv zeta. rewrite generate_unfold. cbn. split; [reflexivity|].
  intros []. reflexivity.
Qed.

(** C10: the [momentum] field of the diagnostic record is the momentum of
    the integrator state handed to the proposal generation, whatever the
    trajectory and the flip do to the endpoint's momentum. *)
Theorem generate_info_momentum (rng_key : Key) (state : State) :
  HMCInfo.momentum
    (snd (hmc.generate rng_key state build_trajectory init_proposal
                       generate_proposal sample_proposal num_integration_steps))
  = IntegratorState.momentum state.
Proof.
  rewrite generate_unfold. reflexivity.
Qed.

(** C9: the [proposal] and [energy] fields of the diagnostic record are the
    proposal generated from the momentum-flipped trajectory endpoint and its
    energy, whatever the acceptance sampler decides and whichever state it
    returns. *)
Theorem generate_info_describes_new_proposal (rng_key : Key) (state : State) :
  let generated :=
    generate_proposal (Proposal.energy (init_proposal state))
                      (integrators.flip_momentum (build_trajectory state)) in
  let info :=
    snd (hmc.generate rng_key state build_trajectory init_proposal
                      generate_proposal sample_proposal num_integration_steps) in
  HMCInfo.proposal info = fst generated
  /\ HMCInfo.energy info = Proposal.energy (fst generated).
Proof.
  cbv zeta. rewrite generate_unfold. cbn. split; reflexivity.
Qed.

End GenerateProperties.

(** * The acceptance probability *)

Section AcceptanceProbability.
Context {PyTree Key : Type} `{PRNG Key}.
Local Open Scope R_scope.

Lemma acceptance_probability_finite (e0 e1 : R) :
  proposal.acceptance_probability (Finite e0) (Finite e1)
  = Finite (Rmin 1 (exp (e0 - e1))).
Proof.
  unfold proposal.acceptance_probability, proposal.log_weight.
  rewrite sub_finite. cbn [Float.is_nan Float.exp]. apply min_one_finite.
Qed.

Lemma log_weight_blow_up (e0 : float) :
  proposal.log_weight e0 PosInf = NegInf.
Proof. destruct e0; reflexivity. Qed.

Lemma acceptance_probability_blow_up (e0 e1 : float) :
  e1 = PosInf ->
  proposal.acceptance_probability e0 e1 = Float.zero.
Proof.
  intros ->. unfold proposal.acceptance_probability.
  rewrite log_weight_blow_up. cbn [Float.exp].
  rewrite min_one_finite, Rmin_right by lra. reflexivity.
Qed.

Lemma static_binomial_sampling_probability
    (rng_key : Key) (initial_proposal new_proposal : Proposal.t PyTree) :
  snd (proposal.static_binomial_sampling rng_key initial_proposal new_proposal)
  = proposal.acceptance_probability (Proposal.energy initial_proposal)
                                    (Proposal.energy new_proposal).
Proof. reflexivity. Qed.

End AcceptanceProbability.

(** * The configured transition ([hmc_proposal]) *)

Section HmcProposalProperties.
Context {PyTree Key : Type} `{PyTreeOps PyTree} `{PRNG Key}.
Local Open Scope R_scope.

Let State := IntegratorState.t PyTree.

Variable integrator : State -> float -> State.
Variable kinetic_energy : PyTree -> float.
Variable step_size : float.
Variable num_integration_steps : Z.
Variable divergence_threshold : float.

Lemma hmc_proposal_unfold (rng_key : Key) (state : State) :
  hmc.hmc_proposal integrator kinetic_energy step_size num_integration_steps
                   divergence_threshold rng_key state
  = let proposed :=
      proposed_state integrator step_size num_integration_steps state in
    let energy_0 := initial_energy kinetic_energy state in
    let energy_1 :=
      proposed_energy integrator kinetic_energy step_size
                      num_integration_steps state in
    let p_accept := proposal.acceptance_probability energy_0 energy_1 in
    let do_accept := Float.ltb (Finite (uniform rng_key)) p_accept in
    (if do_accept then proposed else state,
     HMCInfo.mk
       (IntegratorState.momentum state)
       p_accept
       do_accept
       (proposal.is_diverging divergence_threshold energy_0 energy_1)
       energy_1
       (Proposal.mk proposed energy_1 (proposal.log_weight energy_0 energy_1))
       num_integration_steps).
Proof.
  unfold hmc.hmc_proposal, proposal.proposal_generator.
  rewrite generate_unfold. reflexivity.
Qed.


(** The diagnostic record of the configured transition carries the proposed
    (momentum-flipped) endpoint and its energy whether or not the proposal
    is accepted. *)
Lemma hmc_proposal_info_proposal (rng_key : Key) (state : State) :
  let info :=
    snd (hmc.hmc_proposal integrator kinetic_energy step_size
                          num_integration_steps divergence_threshold
                          rng_key state) in
  let energy_1 :=
    proposed_energy integrator kinetic_energy step_size
                    num_integration_steps state in
  Proposal.state (HMCInfo.proposal info)
  = proposed_state integrator step_size num_integration_steps state
  /\ Proposal.energy (HMCInfo.proposal info) = energy_1
  /\ HMCInfo.energy info = energy_1.
Proof.
  cbv zeta. rewrite hmc_proposal_unfold. cbn. repeat split.
Qed.

End HmcProposalProperties.

(** * The coupled kernel *)

Section CoupledProperties.
Context {PyTree Key Info : Type} `{PyTreeOps PyTree}.

Let State := IntegratorState.t PyTree.

Variable hmc_kernel : Key -> State -> State * Info.

Lemma coupled_step_state_1 (rng_key : Key) (cs : CoupledState.t PyTree) :
  CoupledState.state_1 (coupled_step hmc_kernel rng_key cs)
  = hmc_step hmc_kernel rng_key (CoupledState.state_1 cs).
Proof.
  unfold coupled_step, coupled_hmc.coupled_transition, hmc_step.
  destruct (CoupledState.is_coupled cs); reflexivity.
Qed.

(** With the same single-chain kernel underneath, the same initial state for
    chain 1 and the same key stream, the sequence of chain-1 states of the
    coupled transition is the sequence of states of the plain kernel. *)
Lemma coupled_chain_1_is_plain_chain (keys : list Key) :
  forall (state_1 state_2 : State),
    map (@CoupledState.state_1 PyTree)
        (inference_loop (coupled_step hmc_kernel)
                        (CoupledState.mk state_1 state_2 false) keys)
    = inference_loop (hmc_step hmc_kernel) state_1 keys.
Proof.
  assert (Hgen : forall cs,
    map (@CoupledState.state_1 PyTree) (inference_loop (coupled_step hmc_kernel) cs keys)
    = inference_loop (hmc_step hmc_kernel) (CoupledState.state_1 cs) keys).
  { induction keys as [|k ks IH]; intros cs; cbn; [reflexivity|].
    rewrite IH, coupled_step_state_1. reflexivity. }
  intros s1 s2. apply (Hgen (CoupledState.mk s1 s2 false)).
Qed.

End CoupledProperties.

(** * The kernels built by [hmc.kernel] and [coupled.hmc.kernel] *)

Section KernelProperties.
Context {PyTree Key Array : Type} `{PyTreeOps PyTree} `{PRNG Key}.

Let State := IntegratorState.t PyTree.

Variable gaussian_euclidean :
  Array -> (Key -> PyTree) * (PyTree -> float) * (PyTree -> PyTree).
Variable new_hmc_state : PyTree -> (PyTree -> float) -> State.

Variable potential_fn : PyTree -> float.
Variable step_size : float.
Variable inverse_mass_matrix : Array.
Variable num_integration_steps : Z.
Variable integrator :
  (PyTree -> float) -> (PyTree -> float) -> State -> float -> State.
Variable divergence_threshold : float.

Lemma kernel_unfold (rng_key : Key) (state : State) :
  hmc.kernel gaussian_euclidean potential_fn step_size inverse_mass_matrix
             num_integration_steps integrator divergence_threshold
             rng_key state
  = let momentum_generator := fst (fst (gaussian_euclidean inverse_mass_matrix)) in
    let kinetic_energy_fn := snd (fst (gaussian_euclidean inverse_mass_matrix)) in
    hmc.hmc_proposal (integrator potential_fn kinetic_energy_fn)
                     kinetic_energy_fn step_size num_integration_steps
                     divergence_threshold
                     (snd (split rng_key))
                     (IntegratorState.mk
                        (IntegratorState.position state)
                        (momentum_generator (fst (split rng_key)))
                        (IntegratorState.potential_energy state)
                        (IntegratorState.potential_energy_grad state)).
Proof.
  unfold hmc.kernel, base.hmc.
  destruct (gaussian_euclidean inverse_mass_matrix) as [[mg ke] v].
  destruct (split rng_key) as [km ki]. reflexivity.
Qed.

(** At the level of the kernel, the [momentum] field of the diagnostic
    record is the momentum drawn for this transition. *)
Lemma kernel_info_momentum (rng_key : Key) (state : State) :
  HMCInfo.momentum
    (snd (hmc.kernel gaussian_euclidean potential_fn step_size
                     inverse_mass_matrix num_integration_steps integrator
                     divergence_threshold rng_key state))
  = fst (fst (gaussian_euclidean inverse_mass_matrix)) (fst (split rng_key)).
Proof.
  rewrite kernel_unfold. cbv zeta.
  unfold hmc.hmc_proposal, proposal.proposal_generator.
  rewrite generate_unfold. reflexivity.
Qed.

(** C6: the plain kernel and the coupled kernel built from the same
    potential function, step size, inverse mass matrix and number of
    integration steps, started at the same position for chain 1 and driven
    by the same key stream, give the same sequence of states for chain 1,
    sample for sample. *)
Theorem coupling_equivalence
    (position_1 position_2 : PyTree) (keys : list Key) :
  let hmc_kernel :=
    hmc.kernel gaussian_euclidean potential_fn step_size inverse_mass_matrix
               num_integration_steps integrator divergence_threshold in
  let coupled_hmc_kernel :=
    coupled_hmc.kernel gaussian_euclidean potential_fn step_size
                       inverse_mass_matrix num_integration_steps integrator
                       divergence_threshold in
  let hmc_states :=
    inference_loop (fun rng_key state => fst (hmc_kernel rng_key state))
                   (hmc.new_state new_hmc_state position_1 potential_fn) keys in
  let coupled_hmc_states :=
    inference_loop (fun rng_key state => coupled_hmc_kernel state rng_key)
                   (coupled_hmc.new_state new_hmc_state position_1 position_2
                                          potential_fn)
                   keys in
  map (@CoupledState.state_1 PyTree) coupled_hmc_states = hmc_states.
Proof.
  cbv zeta. unfold coupled_hmc.kernel, coupled_hmc.new_state.
  apply (coupled_chain_1_is_plain_chain
           (hmc.kernel gaussian_euclidean potential_fn step_size
                       inverse_mass_matrix num_integration_steps integrator
                       divergence_threshold)).
Qed.

End KernelProperties.

(** * Worked examples on the one-leaf container *)


Lemma energy_jump_proposed_state (state : IntegratorState.t float) :
  proposed_state energy_jump_integrator (Finite (1 / 100)) 1 state
  = IntegratorState.mk (IntegratorState.position state)
                       (Float.neg (IntegratorState.momentum state))
                       (Finite 1)
                       (IntegratorState.potential_energy_grad state).
Proof. reflexivity. Qed.

(** A rejected transition: the end energy is +infinity, the original state
    is returned, and the diagnostic record still carries the rejected
    proposal and its energy. *)
Lemma rejected_proposal_still_reported :
  let result :=
    hmc.hmc_proposal blow_up_integrator no_kinetic_energy
                     (Finite (1 / 100)) 1 (Finite 1000) 0%nat origin_state in
  fst result = origin_state
  /\ HMCInfo.is_accepted (snd result) = false
  /\ Proposal.state (HMCInfo.proposal (snd result))
     = IntegratorState.mk (Finite 5) (Finite (- 3)) PosInf (Finite 0)
  /\ HMCInfo.energy (snd result) = PosInf
  /\ HMCInfo.momentum (snd result) = Finite 0.
Proof.
  cbv zeta. rewrite hmc_proposal_unfold.
  assert (Hp : proposal.acceptance_probability
                 (initial_energy no_kinetic_energy origin_state)
                 (proposed_energy blow_up_integrator no_kinetic_energy
                                  (Finite (1 / 100)) 1 origin_state)
               = Float.zero)
    by (apply acceptance_probability_blow_up; reflexivity).
  cbv zeta. rewrite Hp, draw_not_below_zero by apply uniform_range.
  repeat split.
Qed.

(** * A run of the coupled kernel

    Two chains started at 1 and -1 under the attracting integrator: both
    accept the first proposal, meet at position 0, and move together from
    then on; chain 1 follows the plain kernel. *)

Lemma attracting_kernel_step (rng_key : nat) (state : IntegratorState.t float) :
  IntegratorState.potential_energy state = Finite 0 ->
  fst (hmc.kernel still_metric flat_potential (Finite (1 / 100))
                  (Finite (1 / 10)) 100 attracting_integrator (Finite 1000)
                  rng_key state)
  = met_state.
Proof.
  intros Hpe. rewrite kernel_unfold. cbv zeta.
  rewrite hmc_proposal_unfold. cbv zeta. cbn [fst].
  unfold initial_energy, proposed_energy, proposal.total_energy.
  cbn [still_metric fst snd IntegratorState.potential_energy
       IntegratorState.momentum no_kinetic_energy].
  rewrite Hpe.
  change (proposed_state (attracting_integrator flat_potential no_kinetic_energy)
            (Finite (1 / 100)) 100
            (IntegratorState.mk (IntegratorState.position state) (Finite 0)
               (Finite 0) (IntegratorState.potential_energy_grad state)))
    with met_state.
  cbn [met_state IntegratorState.potential_energy Float.add].
  unfold no_kinetic_energy. cbv beta iota.
  rewrite acceptance_probability_finite.
  replace (0 + 0 - (0 + 0))%R with 0%R by lra.
  rewrite exp_0, Rmin_left by lra.
  assert (Hdraw : Float.ltb (Finite (uniform (snd (split rng_key)))) (Finite 1)
                  = true).
  { apply ltb_finite. apply uniform_range. }
  rewrite Hdraw. reflexivity.
Qed.

Lemma coupled_run_meets :
  let hmc_kernel :=
    hmc.kernel still_metric flat_potential (Finite (1 / 100))
               (Finite (1 / 10)) 100 attracting_integrator (Finite 1000) in
  let coupled_hmc_kernel :=
    coupled_hmc.kernel still_metric flat_potential (Finite (1 / 100))
                       (Finite (1 / 10)) 100 attracting_integrator
                       (Finite 1000) in
  inference_loop (fun rng_key state => coupled_hmc_kernel state rng_key)
                 (coupled_hmc.new_state scalar_new_state (Finite 1)
                                        (Finite (- 1)) flat_potential)
                 [0; 1]%nat
  = [CoupledState.mk met_state met_state true;
     CoupledState.mk met_state met_state true]
  /\ inference_loop (fun rng_key state => fst (hmc_kernel rng_key state))
                    (hmc.new_state scalar_new_state (Finite 1) flat_potential)
                    [0; 1]%nat
     = [met_state; met_state].
Proof.
  cbv zeta. unfold coupled_hmc.kernel, coupled_hmc.new_state, hmc.new_state.
  cbn [inference_loop]. unfold coupled_hmc.coupled_transition.
  cbn [CoupledState.is_coupled CoupledState.state_1 CoupledState.state_2].
  assert (Heq : tree_eqb (IntegratorState.position met_state)
                         (IntegratorState.position met_state) = true)
    by (apply tree_eqb_spec; reflexivity).
  rewrite !attracting_kernel_step by reflexivity.
  rewrite Heq.
  cbn [CoupledState.is_coupled CoupledState.state_1 CoupledState.state_2].
  rewrite ?attracting_kernel_step by reflexivity.
  split; reflexivity.
Qed.

(** Under the integrator that blows the energy up, every proposal is
    rejected: the two chains stay where they started and never couple. *)
Lemma coupled_run_apart :
  let coupled_hmc_kernel :=
    coupled_hmc.kernel still_metric flat_potential (Finite (1 / 100))
                       (Finite (1 / 10)) 100
                       (fun _ _ => blow_up_integrator) (Finite 1000) in
  let start :=
    coupled_hmc.new_state scalar_new_state (Finite 1) (Finite (- 1))
                          flat_potential in
  inference_loop (fun rng_key state => coupled_hmc_kernel state rng_key)
                 start [0; 1]%nat
  = [start; start].
Proof.
  cbv zeta.
  assert (Hstep : forall rng_key q,
    fst (hmc.kernel still_metric flat_potential (Finite (1 / 100))
                    (Finite (1 / 10)) 100 (fun _ _ => blow_up_integrator)
                    (Finite 1000) rng_key
                    (scalar_new_state q flat_potential))
    = scalar_new_state q flat_potential).
  { intros k q. rewrite kernel_unfold. cbv zeta.
    rewrite hmc_proposal_unfold. cbv zeta. cbn [fst].
    rewrite acceptance_probability_blow_up by reflexivity.
    rewrite draw_not_below_zero by apply uniform_range.
    reflexivity. }
  assert (Hne : tree_eqb (Finite 1) (Finite (- 1)) = false).
  { destruct (tree_eqb (Finite 1) (Finite (- 1))) eqn:E; [|reflexivity].
    apply tree_eqb_spec in E. injection E as E. lra. }
  unfold coupled_hmc.kernel, coupled_hmc.new_state, hmc.new_state.
  cbn [inference_loop]. unfold coupled_hmc.coupled_transition.
  cbn [CoupledState.is_coupled CoupledState.state_1 CoupledState.state_2].
  rewrite !Hstep.
  change (IntegratorState.position (scalar_new_state (Finite 1) flat_potential))
    with (Finite 1).
  change (IntegratorState.position (scalar_new_state (Finite (- 1)) flat_potential))
    with (Finite (- 1)).
  rewrite Hne.
  cbn [CoupledState.is_coupled CoupledState.state_1 CoupledState.state_2].
  reflexivity.
Qed.

(** * The trajectory builder *)

(** The trajectory builder applies the step function once per step. *)
Lemma static_integration_zero {PyTree : Type}
    (integrator : IntegratorState.t PyTree -> float -> IntegratorState.t PyTree)
    (step_size : float) (state : IntegratorState.t PyTree) :
  trajectory.static_integration integrator step_size 0 state = state.
Proof. reflexivity. Qed.

Lemma static_integration_succ {PyTree : Type}
    (integrator : IntegratorState.t PyTree -> float -> IntegratorState.t PyTree)
    (step_size : float) (n : Z) (state : IntegratorState.t PyTree) :
  (0 <= n)%Z ->
  trajectory.static_integration integrator step_size (n + 1) state
  = integrator (trajectory.static_integration integrator step_size n state)
               step_size.
Proof.
  intros Hn. unfold trajectory.static_integration.
  rewrite Z2Nat.inj_add by lia. rewrite Nat.add_comm. reflexivity.
Qed.

(** * What a transition depends on *)

Section GenerateInfluence.
Context {PyTree Key : Type} `{PyTreeOps PyTree} `{PRNG Key}.

Let State := IntegratorState.t PyTree.

Variable build_trajectory : State -> State.
Variable init_proposal : State -> Proposal.t PyTree.
Variable generate_proposal : float -> State -> Proposal.t PyTree * bool.
Variable sample_proposal :
  Key -> Proposal.t PyTree -> Proposal.t PyTree ->
  SampledProposal.t PyTree * bool * float.

(** X1: the random key of [generate] reaches the acceptance sampler only:
    two transitions from the same state with different keys report the same
    momentum, divergence flag, energy, proposal and number of steps. *)
Theorem generate_key_reaches_sampler_only
    (rng_key rng_key' : Key) (state : State) (num_integration_steps : Z) :
  let info :=
    snd (hmc.generate rng_key state build_trajectory init_proposal
                      generate_proposal sample_proposal num_integration_steps) in
  let info' :=
    snd (hmc.generate rng_key' state build_trajectory init_proposal
                      generate_proposal sample_proposal num_integration_steps) in
  HMCInfo.momentum info = HMCInfo.momentum info'
  /\ HMCInfo.is_divergent info = HMCInfo.is_divergent info'
  /\ HMCInfo.energy info = HMCInfo.energy info'
  /\ HMCInfo.proposal info = HMCInfo.proposal info'
  /\ HMCInfo.num_integration_steps info = HMCInfo.num_integration_steps info'.
Proof.
  cbv zeta. rewrite !generate_unfold. cbn. repeat split.
Qed.

(** X2: the [num_integration_steps] argument of [generate] is recorded in
    the diagnostic record and used for nothing else: the trajectory, the
    returned state and every other field are the same for any two values
    of it. *)
Theorem generate_steps_only_recorded
    (rng_key : Key) (state : State) (steps steps' : Z) :
  let result :=
    hmc.generate rng_key state build_trajectory init_proposal
                 generate_proposal sample_proposal steps in
  let result' :=
    hmc.generate rng_key state build_trajectory init_proposal
                 generate_proposal sample_proposal steps' in
  fst result = fst result'
  /\ HMCInfo.momentum (snd result) = HMCInfo.momentum (snd result')
  /\ HMCInfo.acceptance_probability (snd result)
     = HMCInfo.acceptance_probability (snd result')
  /\ HMCInfo.is_accepted (snd result) = HMCInfo.is_accepted (snd result')
  /\ HMCInfo.is_divergent (snd result) = HMCInfo.is_divergent (snd result')
  /\ HMCInfo.energy (snd result) = HMCInfo.energy (snd result')
  /\ HMCInfo.proposal (snd result) = HMCInfo.proposal (snd result')
  /\ HMCInfo.num_integration_steps (snd result) = steps
  /\ HMCInfo.num_integration_steps (snd result') = steps'.
Proof.
  cbv zeta. rewrite !generate_unfold. cbn. repeat split.
Qed.


End GenerateInfluence.

Section KernelInfluence.
Context {PyTree Key Array : Type} `{PyTreeOps PyTree} `{PRNG Key}.

Let State := IntegratorState.t PyTree.

Variable step_size : float.
Variable inverse_mass_matrix : Array.
Variable num_integration_steps : Z.
Variable integrator :
  (PyTree -> float) -> (PyTree -> float) -> State -> float -> State.
Variable divergence_threshold : float.

(** X4: [kernel] keeps the momentum sampler and the kinetic energy of the
    metric and drops its third component (hmc.py line 85): two metrics that
    agree on the first two give the same transition. *)
Theorem kernel_ignores_velocity
    (metric metric' :
       Array -> (Key -> PyTree) * (PyTree -> float) * (PyTree -> PyTree))
    (potential_fn : PyTree -> float) (rng_key : Key) (state : State) :
  fst (metric inverse_mass_matrix) = fst (metric' inverse_mass_matrix) ->
  hmc.kernel metric potential_fn step_size inverse_mass_matrix
             num_integration_steps integrator divergence_threshold
             rng_key state
  = hmc.kernel metric' potential_fn step_size inverse_mass_matrix
               num_integration_steps integrator divergence_threshold
               rng_key state.
Proof.
  intros Hmetric. rewrite !kernel_unfold. cbv zeta.
  rewrite Hmetric. reflexivity.
Qed.

(** X5: [kernel] hands the potential function to the integrator and never
    evaluates it itself (hmc.py line 88): two potentials under which the
    integrator steps alike give the same transition, energies included. *)
Theorem kernel_uses_potential_through_integrator
    (metric : Array -> (Key -> PyTree) * (PyTree -> float) * (PyTree -> PyTree))
    (potential_fn potential_fn' : PyTree -> float)
    (rng_key : Key) (state : State) :
  integrator potential_fn (snd (fst (metric inverse_mass_matrix)))
  = integrator potential_fn' (snd (fst (metric inverse_mass_matrix))) ->
  hmc.kernel metric potential_fn step_size inverse_mass_matrix
             num_integration_steps integrator divergence_threshold
             rng_key state
  = hmc.kernel metric potential_fn' step_size inverse_mass_matrix
               num_integration_steps integrator divergence_threshold
               rng_key state.
Proof.
  intros Hstep. rewrite !kernel_unfold. cbv zeta.
  rewrite Hstep. reflexivity.
Qed.

End KernelInfluence.

(** * Unpacking and attribute errors of [generate] *)

Section UntypedGenerateProperties.
Context {PyTree Key V : Type} `{PyTreeOps PyTree}.

Let State := IntegratorState.t PyTree.

Variable energy_of : V -> option V.
Variable state_of : V -> option V.

Variable build_trajectory : State -> State.
Variable init_proposal : State -> V.
Variable generate_proposal : V -> State -> list V.
Variable sample_proposal : Key -> V -> V -> list V.
Variable num_integration_steps : Z.

(** X6: [generate] returns normally exactly when the initial proposal has
    an energy, [generate_proposal] returns two items, the sampler returns
    three items, the new proposal has an energy and the sampled proposal
    has a state; the result is then the sampled state and the record of
    lines 166-174. *)
Theorem untyped_generate_returns_iff
    (rng_key : Key) (state : State)
    (result : V * untyped.hmc_info PyTree V) :
  untyped.generate energy_of state_of rng_key state build_trajectory
                   init_proposal generate_proposal sample_proposal
                   num_integration_steps
  = inr result
  <-> exists proposal_energy new_proposal is_diverging sampled_proposal
             do_accept p_accept new_energy sampled_state,
      energy_of (init_proposal state) = Some proposal_energy
      /\ generate_proposal proposal_energy
           (integrators.flip_momentum (build_trajectory state))
         = [new_proposal; is_diverging]
      /\ sample_proposal rng_key (init_proposal state) new_proposal
         = [sampled_proposal; do_accept; p_accept]
      /\ energy_of new_proposal = Some new_energy
      /\ state_of sampled_proposal = Some sampled_state
      /\ result
         = (sampled_state,
            untyped.mk_info (IntegratorState.momentum state) p_accept
                            do_accept is_diverging new_energy new_proposal
                            num_integration_steps).
Proof.
  unfold untyped.generate, untyped.getattr. cbv zeta. split.
  - destruct (energy_of (init_proposal state)) as [e|] eqn:Ee; cbn;
      [|discriminate].
    destruct (generate_proposal e _) as [|np [|d [|x gp]]] eqn:Egp; cbn;
      try discriminate.
    destruct (sample_proposal rng_key _ np) as [|sp [|a [|p [|y rest]]]]
      eqn:Esp; cbn; try discriminate.
    destruct (energy_of np) as [e'|] eqn:Ee'; cbn; [|discriminate].
    destruct (state_of sp) as [s|] eqn:Es; cbn; [|discriminate].
    intros E. injection E as <-.
    exists e, np, d, sp, a, p, e', s.
    repeat split; assumption.
  - intros (e & np & d & sp & a & p & e' & s & Ee & Egp & Esp & Ee' & Es & ->).
    rewrite Ee; cbn. rewrite Egp; cbn. rewrite Esp; cbn.
    rewrite Ee'; cbn. rewrite Es. reflexivity.
Qed.

(** On collaborators that return iterables, [generate_objects] is
    [generate] on their items. *)
Lemma generate_objects_items (rng_key : Key) (state : State) :
  untyped.generate_objects energy_of state_of rng_key state build_trajectory
    init_proposal
    (fun e s => untyped.Items (generate_proposal e s))
    (fun k p q => untyped.Items (sample_proposal k p q))
    num_integration_steps
  = untyped.generate energy_of state_of rng_key state build_trajectory
      init_proposal generate_proposal sample_proposal num_integration_steps.
Proof. reflexivity. Qed.

End UntypedGenerateProperties.

Section UntypedUnpackingErrors.
Context {PyTree Key V : Type} `{PyTreeOps PyTree}.

Let State := IntegratorState.t PyTree.

Variable energy_of : V -> option V.
Variable state_of : V -> option V.

Variable build_trajectory : State -> State.
Variable init_proposal : State -> V.
Variable generate_proposal : V -> State -> untyped.returned V.
Variable sample_proposal : Key -> V -> V -> untyped.returned V.
Variable num_integration_steps : Z.

(** X7: provided the initial proposal has an energy, [generate] raises
    TypeError exactly when what [generate_proposal] returns is not
    iterable, or it is two items and what the sampler returns is not
    iterable; it raises ValueError exactly when [generate_proposal] returns
    an iterable that does not have two items, or it returns two items and
    the sampler returns an iterable that does not have three.  Without an
    energy on the initial proposal neither is raised. *)
Theorem generate_unpacking_errors (rng_key : Key) (state : State) :
  let run :=
    untyped.generate_objects energy_of state_of rng_key state
      build_trajectory init_proposal generate_proposal sample_proposal
      num_integration_steps in
  let end_state := integrators.flip_momentum (build_trajectory state) in
  (run = inl untyped.TypeError
   <-> exists proposal_energy,
       energy_of (init_proposal state) = Some proposal_energy
       /\ (generate_proposal proposal_energy end_state
            = untyped.NotIterable V
           \/ exists new_proposal is_diverging,
                generate_proposal proposal_energy end_state
                = untyped.Items [new_proposal; is_diverging]
                /\ sample_proposal rng_key (init_proposal state) new_proposal
                   = untyped.NotIterable V))
  /\ (run = inl untyped.ValueError
      <-> exists proposal_energy,
          energy_of (init_proposal state) = Some proposal_energy
          /\ ((exists generated,
                 generate_proposal proposal_energy end_state
                 = untyped.Items generated
                 /\ length generated <> 2%nat)
              \/ exists new_proposal is_diverging sampled,
                   generate_proposal proposal_energy end_state
                   = untyped.Items [new_proposal; is_diverging]
                   /\ sample_proposal rng_key (init_proposal state)
                                      new_proposal
                      = untyped.Items sampled
                   /\ length sampled <> 3%nat)).
Proof.
  cbv zeta. unfold untyped.generate_objects, untyped.getattr. cbv zeta.
  destruct (energy_of (init_proposal state)) as [e|]; cbn.
  2:{ split; (split; [discriminate | intros (e & E & _); discriminate]). }
  destruct (generate_proposal e _) as [[|np [|d [|x gp]]]|] eqn:Egp; cbn.
  5:{ split; split.
      - intros _. exists e. split; [reflexivity|]. left. exact Egp.
      - reflexivity.
      - discriminate.
      - intros (e0 & E & Hc). injection E as <-. exfalso.
        destruct Hc as [(l & Hgp & _) | (np & d & l & Hgp & _)];
          rewrite Egp in Hgp; discriminate. }
  1,2,4:
    split; split;
    [ discriminate
    | intros (e0 & E & Hc); injection E as <-; exfalso;
      destruct Hc as [Hgp | (np' & d' & Hgp & _)];
      rewrite Egp in Hgp; discriminate
    | intros _; exists e; split; [reflexivity|]; left;
      eexists; split; [exact Egp | cbn; lia]
    | reflexivity ].
  destruct (sample_proposal rng_key _ np) as [[|sp [|a [|p [|y rest]]]]|]
    eqn:Esp; cbn.
  6:{ split; split.
      - intros _. exists e. split; [reflexivity|]. right.
        exists np, d. split; [exact Egp | exact Esp].
      - reflexivity.
      - discriminate.
      - intros (e0 & E & Hc). injection E as <-. exfalso.
        destruct Hc as [(l & Hgp & Hlen) | (np' & d' & l & Hgp & Hsp & _)];
          rewrite Egp in Hgp.
        + injection Hgp as <-. cbn in Hlen. lia.
        + injection Hgp as <- <-. rewrite Esp in Hsp. discriminate. }
  1,2,3,5:
    split; split;
    [ discriminate
    | intros (e0 & E & Hc); injection E as <-; exfalso;
      destruct Hc as [Hgp | (np' & d' & Hgp & Hsp)];
      rewrite Egp in Hgp;
      [ discriminate
      | injection Hgp as <- <-; rewrite Esp in Hsp; discriminate ]
    | intros _; exists e; split; [reflexivity|]; right;
      exists np, d; eexists; split; [exact Egp|]; split; [exact Esp|];
      cbn; lia
    | reflexivity ].
  split; split.
  - destruct (energy_of np); cbn; [|discriminate].
    destruct (state_of sp); cbn; discriminate.
  - intros (e0 & E & Hc). injection E as <-. exfalso.
    destruct Hc as [Hgp | (np' & d' & Hgp & Hsp)];
      rewrite Egp in Hgp; [discriminate|].
    injection Hgp as <- <-. rewrite Esp in Hsp. discriminate.
  - destruct (energy_of np); cbn; [|discriminate].
    destruct (state_of sp); cbn; discriminate.
  - intros (e0 & E & Hc). injection E as <-. exfalso.
    destruct Hc as [(l & Hgp & Hlen) | (np' & d' & l & Hgp & Hsp & Hlen)];
      rewrite Egp in Hgp.
    + injection Hgp as <-. cbn in Hlen. lia.
    + injection Hgp as <- <-. rewrite Esp in Hsp. injection Hsp as <-.
      cbn in Hlen. lia.
Qed.

End UntypedUnpackingErrors.

Section UntypedRefinement.
Context {PyTree Key : Type} `{PyTreeOps PyTree}.

Let State := IntegratorState.t PyTree.

(** X8: on collaborators that return a pair and a triple of the expected
    objects, the transition with unpacking never raises and computes the
    state and the record of the typed [generate]. *)
Theorem untyped_generate_agrees_with_typed
    (rng_key : Key) (state : State)
    (build_trajectory : State -> State)
    (init_proposal : State -> Proposal.t PyTree)
    (generate_proposal : float -> State -> Proposal.t PyTree * bool)
    (sample_proposal :
       Key -> Proposal.t PyTree -> Proposal.t PyTree ->
       SampledProposal.t PyTree * bool * float)
    (num_integration_steps : Z) :
  let typed :=
    hmc.generate rng_key state build_trajectory init_proposal
                 generate_proposal sample_proposal num_integration_steps in
  untyped.generate untyped.value_energy untyped.value_state rng_key state
                   build_trajectory
                   (untyped.lift_init_proposal init_proposal)
                   (untyped.lift_generate_proposal generate_proposal)
                   (untyped.lift_sample_proposal sample_proposal)
                   num_integration_steps
  = inr (untyped.VState (fst typed), untyped.lift_info (snd typed)).
Proof.
  cbv zeta. rewrite generate_unfold. cbv zeta.
  unfold untyped.generate, untyped.getattr, untyped.lift_init_proposal,
    untyped.lift_generate_proposal, untyped.lift_sample_proposal.
  cbn [untyped.value_energy untyped.bind].
  destruct (generate_proposal _ _) as [np d]. cbn [untyped.unpack_2 untyped.bind].
  destruct (sample_proposal _ _ _) as [[sp a] p].
  reflexivity.
Qed.

End UntypedRefinement.

(** * The target of the coupled test *)

Section TestPotential.
Import String.
Import test_coupled_hmc.
Local Open Scope R_scope.

(** X11: [potential] is defined exactly on the positions whose only entry
    is [x], where it is [normal_potential_fn] of that entry. *)
Theorem potential_defined_iff (position : list (String.string * R)) (u : R) :
  potential position = Some u
  <-> exists x, position = [("x"%string, x)] /\ u = normal_potential_fn x.
Proof.
  unfold potential. split.
  - destruct position as [|[name x] [|entry position]]; try discriminate.
    destruct (String.eqb name "x") eqn:E; [|discriminate].
    apply String.eqb_eq in E. subst name.
    intros Heq. injection Heq as <-. exists x. split; reflexivity.
  - intros (x & -> & ->). reflexivity.
Qed.

End TestPotential.

(** * Witnesses *)


(** Two metrics with different velocities give the same transition. *)
Lemma kernel_ignores_velocity_witness :
  hmc.kernel still_metric flat_potential (Finite (1 / 100)) (Finite (1 / 10))
             100 attracting_integrator (Finite 1000) 0%nat origin_state
  = hmc.kernel still_metric_reversed flat_potential (Finite (1 / 100))
               (Finite (1 / 10)) 100 attracting_integrator (Finite 1000)
               0%nat origin_state.
Proof.
  apply kernel_ignores_velocity. reflexivity.
Defined.

(** Under an integrator that does not look at the potential, two different
    potentials give the same transition. *)
Lemma kernel_uses_potential_through_integrator_witness :
  hmc.kernel still_metric flat_potential (Finite (1 / 100)) (Finite (1 / 10))
             100 (fun _ _ => blow_up_integrator) (Finite 1000)
             0%nat origin_state
  = hmc.kernel still_metric sloped_potential (Finite (1 / 100))
               (Finite (1 / 10)) 100 (fun _ _ => blow_up_integrator)
               (Finite 1000) 0%nat origin_state.
Proof.
  apply (kernel_uses_potential_through_integrator
           (Finite (1 / 100)) (Finite (1 / 10)) 100
           (fun _ _ => blow_up_integrator) (Finite 1000)
           still_metric flat_potential sloped_potential 0%nat origin_state).
  reflexivity.
Defined.



(** A [generate_proposal] that returns None makes [generate] raise
    TypeError; a sampler that returns the sampled proposal and the flag
    without the probability makes it raise ValueError. *)
Lemma generate_unpacking_errors_witness :
  untyped.generate_objects
    untyped.value_energy untyped.value_state 0%nat origin_state
    (trajectory.static_integration energy_jump_integrator (Finite (1 / 100)) 1)
    (untyped.lift_init_proposal (proposal.init_proposal no_kinetic_energy))
    (fun _ _ => untyped.NotIterable (untyped.value float))
    (fun (rng_key : nat) (proposal new_proposal : untyped.value float) =>
       untyped.Items [new_proposal; untyped.VBool float true])
    1
  = inl untyped.TypeError
  /\ untyped.generate_objects
       untyped.value_energy untyped.value_state 0%nat origin_state
       (trajectory.static_integration energy_jump_integrator
                                      (Finite (1 / 100)) 1)
       (untyped.lift_init_proposal (proposal.init_proposal no_kinetic_energy))
       (fun e s =>
          untyped.Items
            (untyped.lift_generate_proposal
               (proposal.generate_proposal no_kinetic_energy (Finite 1000))
               e s))
       (fun (rng_key : nat) (proposal new_proposal : untyped.value float) =>
          untyped.Items [new_proposal; untyped.VBool float true])
       1
     = inl untyped.ValueError.
Proof.
  split.
  - apply generate_unpacking_errors.
    eexists. split; [reflexivity|]. left. reflexivity.
  - apply generate_unpacking_errors.
    eexists. split; [reflexivity|]. right.
    eexists. eexists. eexists.
    split; [reflexivity|]. split; [reflexivity|]. cbn. lia.
Defined.
